(** * Shallow embedding of the DART financial-statement resolver

    Source: [src/stock_analyzer(streamlit).py], function
    [get_financial_statements] and its inner closure [try_one_year].

    - The DART endpoint [fnlttSinglAcntAll.json] is an oracle [src] from a
      call (year, reprt_code, fs_div) to a fetch outcome: either the
      [requests.get(...).json()] expression raised ([FetchError]) or it
      produced a JSON object ([FetchJson]).
    - Every call is recorded in a trace, so that the number and the order of
      calls to the endpoint can be stated.
    - A pandas DataFrame built from [res["list"]] is the list of its rows
      (JSON objects as association lists); its columns are the union of the
      rows' keys, and a missing cell is NaN, which [astype(str)] prints as
      ["nan"]. *)

From Stdlib Require Import ZArith List String Ascii Bool Lia.
From Stdlib Require Import Numbers.DecimalString Numbers.DecimalPos Numbers.DecimalZ.
Import ListNotations.
Open Scope string_scope.

(** ** Python string helpers *)

(** Strings are the UTF-8 bytes of Python's [str] values.  The characters
    for which [str.isspace] holds, and so which [str.strip()] and pandas'
    [.str.strip()] remove, are U+0009..U+000D, U+001C..U+0020, U+0085,
    U+00A0, U+1680, U+2000..U+200A, U+2028, U+2029, U+202F, U+205F and
    U+3000.  Their encodings start with an ASCII byte or a lead byte, never a
    continuation byte, so in valid UTF-8 an encoding found at either end of
    the bytes is a whole character. *)

(** The one-byte whitespace characters. *)
Definition is_space (c : ascii) : bool :=
  let n := nat_of_ascii c in
  (Nat.leb 9 n && Nat.leb n 13) || (Nat.leb 28 n && Nat.leb n 32).

(** U+0085 and U+00A0: [C2 85], [C2 A0]. *)
Definition ws2 (a b : ascii) : bool :=
  N.eqb (N_of_ascii a) 194 &&
  (N.eqb (N_of_ascii b) 133 || N.eqb (N_of_ascii b) 160).

(** U+1680 [E1 9A 80]; U+2000..U+200A [E2 80 80..8A], U+2028 [E2 80 A8],
    U+2029 [E2 80 A9], U+202F [E2 80 AF]; U+205F [E2 81 9F]; U+3000
    [E3 80 80]. *)
Definition ws3 (a b c : ascii) : bool :=
  let a := N_of_ascii a in let b := N_of_ascii b in let c := N_of_ascii c in
  (N.eqb a 225 && N.eqb b 154 && N.eqb c 128) ||
  (N.eqb a 226 && N.eqb b 128 &&
     ((N.leb 128 c && N.leb c 138) || N.eqb c 168 || N.eqb c 169 || N.eqb c 175)) ||
  (N.eqb a 226 && N.eqb b 129 && N.eqb c 159) ||
  (N.eqb a 227 && N.eqb b 128 && N.eqb c 128).

(** The bytes of exactly one whitespace character. *)
Definition is_ws (w : string) : bool :=
  match w with
  | String a EmptyString => is_space a
  | String a (String b EmptyString) => ws2 a b
  | String a (String b (String c EmptyString)) => ws3 a b c
  | _ => false
  end.

(** The rest of the string after a leading whitespace character. *)
Definition ws_head (s : string) : option string :=
  match s with
  | EmptyString => None
  | String a s1 =>
      if is_space a then Some s1 else
      match s1 with
      | EmptyString => None
      | String b s2 =>
          if ws2 a b then Some s2 else
          match s2 with
          | EmptyString => None
          | String c s3 => if ws3 a b c then Some s3 else None
          end
      end
  end.

(** [s.lstrip()]: drop leading whitespace characters. *)
Fixpoint lstrip (s : string) : string :=
  match s with
  | EmptyString => EmptyString
  | String a s1 =>
      if is_space a then lstrip s1 else
      match s1 with
      | EmptyString => s
      | String b s2 =>
          if ws2 a b then lstrip s2 else
          match s2 with
          | EmptyString => s
          | String c s3 => if ws3 a b c then lstrip s3 else s
          end
      end
  end.

(** [s.rstrip()]: the tail is stripped first; what is left of the string
    then ends in whitespace only when it is one whitespace character. *)
Fixpoint rstrip (s : string) : string :=
  match s with
  | EmptyString => EmptyString
  | String c s' =>
      let t := rstrip s' in
      if is_ws (String c t) then EmptyString else String c t
  end.

(** [s.strip()] *)
Definition strip (s : string) : string := rstrip (lstrip s).

(** [s.replace(",", "")] *)
Fixpoint remove_commas (s : string) : string :=
  match s with
  | EmptyString => EmptyString
  | String c s' =>
      if Ascii.eqb c ","%char then remove_commas s' else String c (remove_commas s')
  end.

(** [str(year)] for an [int]. *)
Definition Z_to_string (x : Z) : string :=
  NilEmpty.string_of_int (Z.to_int x).

(** ** Data model *)

(** The [fs_div] values. *)
Inductive Scope := CFS | OFS.

(** One element of [res["list"]]: a JSON object, whose values the resolver
    only ever turns into strings. *)
Definition Row := list (string * string).

(** [row.get(k)]: as for [json.loads], the last binding of a key wins. *)
Definition row_get (k : string) (r : Row) : option string :=
  fold_left (fun acc kv => if String.eqb (fst kv) k then Some (snd kv) else acc) r None.

(** [k in pd.DataFrame(rows).columns] *)
Definition has_col (k : string) (rows : list Row) : bool :=
  existsb (fun r => existsb (fun kv => String.eqb (fst kv) k) r) rows.

(** The JSON object returned by the endpoint, as far as the resolver reads it:
    [res.get("status")] and [res.get("list")] when it is a [list]
    ([None] when the key is absent or not a list). *)
Record Response := mkResponse {
  status : option string;
  list_field : option (list Row)
}.

Inductive Fetch :=
| FetchError                 (* requests.get(...).json() raised *)
| FetchJson (r : Response).

Record Call := mkCall {
  c_year : Z;
  c_reprt_code : string;
  c_fs_div : Scope
}.

(** How the body of the inner loop leaves the loops: [return df] or an
    uncaught exception. *)
Inductive Exit :=
| Return (df : list (string * string))   (* rows (account_nm, thstrm_amount) *)
| Raise (e : string).

(** What [try_one_year] does for a year. *)
Inductive YearOutcome :=
| Adopted (df : list (string * string))
| NotFound                               (* return None *)
| YearRaised (e : string).

(** A DataFrame stored in [fs_data]. *)
Inductive Frame :=
| FRows (df : list (string * string))    (* columns account_nm, thstrm_amount *)
| FMessage (msg : string).               (* pd.DataFrame({"메시지": [msg]}) *)

(** [get_financial_statements] returns the dict [fs_data] (keys in insertion
    order) or lets an exception escape. *)
Inductive Result :=
| Ok (fs_data : list (string * Frame))
| Raised (e : string).

(** ** The resolver *)

Definition code_11011 := "11011".
Definition code_11012 := "11012".
Definition code_11013 := "11013".
Definition code_11014 := "11014".

(** The [fs_div_order] chosen from [fs_mode]. *)
Definition fs_div_order_of (fs_mode : string) : list Scope :=
  if String.eqb fs_mode "CFS_ONLY" then [CFS]
  else if String.eqb fs_mode "OFS_ONLY" then [OFS]
  else if String.eqb fs_mode "AUTO_OFS_CFS" then [OFS; CFS]
  else [CFS; OFS].

(** [reprt_overrides] is [dict | None]; [year in reprt_overrides]. *)
Fixpoint assoc_Z (y : Z) (m : list (Z * string)) : option string :=
  match m with
  | [] => None
  | (k, v) :: m' => if Z.eqb k y then Some v else assoc_Z y m'
  end.

(** Per-row normalisation of the adopted frame:
    [df["account_nm"].astype(str).str.strip()] and
    [df["thstrm_amount"].astype(str).str.replace(",", "").str.strip()]. *)
Definition cell (k : string) (r : Row) : string :=
  match row_get k r with Some v => v | None => "nan" end.

Definition normalize_amount (s : string) : string := strip (remove_commas s).

Definition normalize_row (r : Row) : string * string :=
  (strip (cell "account_nm" r), normalize_amount (cell "thstrm_amount" r)).

Section Resolver.

(** The endpoint, for the fixed [crtfc_key] and [corp_code]. *)
Variable src : Call -> Fetch.
(** [END_DATE.year] *)
Variable current_year : Z.
Variable reprt_overrides : option (list (Z * string)).

Definition reprt_codes (year : Z) : list string :=
  match reprt_overrides with
  | Some m =>
      match m, assoc_Z year m with
      | _ :: _, Some rc => [rc]
      | _, _ => if Z.ltb year current_year
                then [code_11011; code_11012; code_11013; code_11014]
                else [code_11014; code_11013; code_11012; code_11011]
      end
  | None => if Z.ltb year current_year
            then [code_11011; code_11012; code_11013; code_11014]
            else [code_11014; code_11013; code_11012; code_11011]
  end.

(** One iteration of the inner loop body after the request: [None] is
    [continue] / falling through to the next iteration. *)
Definition body (res : Fetch) : option Exit :=
  match res with
  | FetchError => None
  | FetchJson r =>
      match status r, list_field r with
      | Some st, Some ((_ :: _) as rows) =>
          if String.eqb st "000" then
            let has_nm := has_col "account_nm" rows in
            let has_amt := has_col "thstrm_amount" rows in
            if negb has_nm && negb has_amt then None
            else if negb has_nm then Some (Raise "KeyError: 'account_nm'")
            else if negb has_amt then Some (Raise "KeyError: 'thstrm_amount'")
            else Some (Return (map normalize_row rows))
          else None
      | _, _ => None
      end
  end.

(** [for reprt_code in reprt_codes: ...] under a fixed [fs_div]. *)
Fixpoint for_codes (year : Z) (fs_div : Scope) (codes : list string)
  : option Exit * list Call :=
  match codes with
  | [] => (None, [])
  | rc :: codes' =>
      let c := mkCall year rc fs_div in
      match body (src c) with
      | Some ex => (Some ex, [c])
      | None => let (o, tr) := for_codes year fs_div codes' in (o, c :: tr)
      end
  end.

(** [for fs_div in fs_div_order: ...] *)
Fixpoint for_divs (year : Z) (codes : list string) (divs : list Scope)
  : option Exit * list Call :=
  match divs with
  | [] => (None, [])
  | d :: divs' =>
      match for_codes year d codes with
      | (Some ex, tr) => (Some ex, tr)
      | (None, tr) => let (o, tr') := for_divs year codes divs' in (o, (tr ++ tr')%list)
      end
  end.

Definition try_one_year (fs_div_order : list Scope) (year : Z)
  : YearOutcome * list Call :=
  match for_divs year (reprt_codes year) fs_div_order with
  | (Some (Return df), tr) => (Adopted df, tr)
  | (Some (Raise e), tr) => (YearRaised e, tr)
  | (None, tr) => (NotFound, tr)
  end.

(** [for year in range(...): df = try_one_year(year); fs_data[str(year)] = ...] *)
Fixpoint for_years (fs_div_order : list Scope) (years : list Z)
  : Result * list Call :=
  match years with
  | [] => (Ok [], [])
  | y :: ys =>
      match try_one_year fs_div_order y with
      | (YearRaised e, tr) => (Raised e, tr)
      | (o, tr) =>
          let fr := match o with Adopted df => FRows df | _ => FRows [] end in
          match for_years fs_div_order ys with
          | (Ok d, tr') => (Ok ((Z_to_string y, fr) :: d), (tr ++ tr')%list)
          | (Raised e, tr') => (Raised e, (tr ++ tr')%list)
          end
      end
  end.

(** [range(current_year - 5, current_year + 1)] *)
Definition years_range : list Z :=
  map (fun i => current_year - 5 + Z.of_nat i)%Z (seq 0 6).

Definition no_data_msg :=
  "데이터 없음 (API 키 없음 또는 corp_code 없음)".

(** [get_financial_statements(corp_code, reprt_overrides, fs_mode)] with
    the module-level [DART_API_KEY]; [corp_code] may be [None]. *)
Definition get_financial_statements (dart_api_key : string)
    (corp_code : option string) (fs_mode : string) : Result * list Call :=
  match dart_api_key, corp_code with
  | EmptyString, _ | _, None | _, Some EmptyString =>
      (Ok [("재무제표", FMessage no_data_msg)], [])
  | _, _ => for_years (fs_div_order_of fs_mode) years_range
  end.

End Resolver.

(** ** Auxiliary definitions used to state the properties *)

(** The (scope, report type) combinations in nested order: scope outer,
    report type inner. *)
Definition candidates (year : Z) (codes : list string) (divs : list Scope)
  : list Call :=
  flat_map (fun d => map (fun rc => mkCall year rc d) codes) divs.

(** Does the string contain a thousands separator? *)
Fixpoint has_comma (s : string) : bool :=
  match s with
  | EmptyString => false
  | String c s' => Ascii.eqb c ","%char || has_comma s'
  end.

(** Does some row of the JSON list carry both fields? *)
Definition row_has_both (r : Row) : bool :=
  existsb (fun kv => String.eqb (fst kv) "account_nm") r &&
  existsb (fun kv => String.eqb (fst kv) "thstrm_amount") r.

(** A fetch outcome the loop skips: the request raised, the status is not
    ["000"], the list is absent or empty, or no row has either field. *)
Definition skipped (f : Fetch) : bool :=
  match f with
  | FetchError => true
  | FetchJson r =>
      match status r, list_field r with
      | Some st, Some ((_ :: _) as rows) =>
          negb (String.eqb st "000") ||
          (negb (has_col "account_nm" rows) && negb (has_col "thstrm_amount" rows))
      | _, _ => true
      end
  end.

(** A fetch outcome that is adopted, with its rows: status ["000"], a
    non-empty list, and both fields among the rows' keys. *)
Definition adoptable (f : Fetch) : option (list Row) :=
  match f with
  | FetchError => None
  | FetchJson r =>
      match status r, list_field r with
      | Some st, Some ((_ :: _) as rows) =>
          if String.eqb st "000" && has_col "account_nm" rows
             && has_col "thstrm_amount" rows
          then Some rows else None
      | _, _ => None
      end
  end.

Section Loops.

Variable src : Call -> Fetch.

(** The nested loops read as one loop over a flat list of calls. *)
Fixpoint first_exit (cs : list Call) : option Exit * list Call :=
  match cs with
  | [] => (None, [])
  | c :: cs' =>
      match body (src c) with
      | Some ex => (Some ex, [c])
      | None => let (o, tr) := first_exit cs' in (o, c :: tr)
      end
  end.

Lemma for_codes_first_exit (y : Z) (d : Scope) (codes : list string) :
  for_codes src y d codes = first_exit (map (fun rc => mkCall y rc d) codes).
Proof.
  induction codes as [|rc codes IH]; simpl; [reflexivity|].
  destruct (body (src (mkCall y rc d))); [reflexivity|].
  now rewrite IH.
Qed.

Lemma first_exit_app (l1 l2 : list Call) :
  first_exit (l1 ++ l2) =
  match first_exit l1 with
  | (Some ex, tr) => (Some ex, tr)
  | (None, tr) => let (o, tr') := first_exit l2 in (o, (tr ++ tr')%list)
  end.
Proof.
  induction l1 as [|c l1 IH]; simpl.
  - destruct (first_exit l2); reflexivity.
  - destruct (body (src c)); [reflexivity|].
    rewrite IH.
    destruct (first_exit l1) as [[ex|] tr]; [reflexivity|].
    destruct (first_exit l2); reflexivity.
Qed.

Lemma for_divs_first_exit (y : Z) (codes : list string) (divs : list Scope) :
  for_divs src y codes divs = first_exit (candidates y codes divs).
Proof.
  induction divs as [|d divs IH]; simpl; [reflexivity|].
  rewrite first_exit_app, <- for_codes_first_exit, IH.
  destruct (for_codes src y d codes) as [[ex|] tr]; reflexivity.
Qed.

Lemma first_exit_prefix (cs : list Call) :
  exists rest, (snd (first_exit cs) ++ rest)%list = cs.
Proof.
  induction cs as [|c cs [rest IH]]; simpl.
  - now exists [].
  - destruct (body (src c)).
    + now exists cs.
    + destruct (first_exit cs) as [o tr]; simpl in *.
      exists rest; now rewrite IH.
Qed.

Lemma first_exit_none (cs tr : list Call) :
  first_exit cs = (None, tr) ->
  tr = cs /\ Forall (fun c => body (src c) = None) cs.
Proof.
  revert tr; induction cs as [|c cs IH]; simpl; intros tr H.
  - inversion H; auto.
  - destruct (body (src c)) eqn:Hb; [discriminate|].
    destruct (first_exit cs) as [o tr'] eqn:He; inversion H; subst.
    destruct (IH tr' eq_refl) as [-> HF]; auto.
Qed.

Lemma first_exit_some (cs tr : list Call) (ex : Exit) :
  first_exit cs = (Some ex, tr) ->
  exists pre c post,
    cs = (pre ++ c :: post)%list /\ tr = (pre ++ [c])%list /\
    Forall (fun c' => body (src c') = None) pre /\ body (src c) = Some ex.
Proof.
  revert tr; induction cs as [|c cs IH]; simpl; intros tr H; [discriminate|].
  destruct (body (src c)) eqn:Hb.
  - inversion H; subst. now exists [], c, cs.
  - destruct (first_exit cs) as [o tr'] eqn:He; inversion H; subst.
    destruct (IH tr' eq_refl) as (pre & c' & post & -> & -> & HF & Hc).
    exists (c :: pre), c', post; repeat split; auto.
Qed.

Lemma first_exit_some_intro (pre post : list Call) (c : Call) (ex : Exit) :
  Forall (fun c' => body (src c') = None) pre -> body (src c) = Some ex ->
  first_exit (pre ++ c :: post) = (Some ex, (pre ++ [c])%list).
Proof.
  intros HF Hc; induction HF as [|c' pre Hc' HF IH]; simpl.
  - now rewrite Hc.
  - now rewrite Hc', IH.
Qed.

End Loops.

(** Only the calls on the trace matter. *)
Lemma first_exit_ext (src src' : Call -> Fetch) (cs tr : list Call) (o : option Exit) :
  first_exit src cs = (o, tr) ->
  (forall c, In c tr -> src' c = src c) ->
  first_exit src' cs = (o, tr).
Proof.
  revert tr; induction cs as [|c cs IH]; simpl; intros tr H Hag; [exact H|].
  rewrite (Hag c) by (destruct (body (src c)); [inversion H|
    destruct (first_exit src cs); inversion H]; subst; now left).
  destruct (body (src c)).
  - exact H.
  - destruct (first_exit src cs) as [o' tr'] eqn:He; inversion H; subst.
    rewrite (IH tr' eq_refl); [reflexivity|].
    intros c' Hin; apply Hag; now right.
Qed.

Lemma try_one_year_first_exit src cur ov order y :
  try_one_year src cur ov order y =
  match first_exit src (candidates y (reprt_codes cur ov y) order) with
  | (Some (Return df), tr) => (Adopted df, tr)
  | (Some (Raise e), tr) => (YearRaised e, tr)
  | (None, tr) => (NotFound, tr)
  end.
Proof. unfold try_one_year; now rewrite for_divs_first_exit. Qed.

(** ** String lemmas *)

Lemma lstrip_eq (s : string) :
  lstrip s = match ws_head s with Some r => lstrip r | None => s end.
Proof.
  destruct s as [|a s1]; [reflexivity|]; cbn [lstrip ws_head].
  destruct (is_space a); [reflexivity|].
  destruct s1 as [|b s2]; [reflexivity|]; destruct (ws2 a b); [reflexivity|].
  destruct s2 as [|c s3]; [reflexivity|]; destruct (ws3 a b c); reflexivity.
Qed.

Lemma ws_head_app (p w r : string) :
  ws_head p = Some r -> ws_head (p ++ w) = Some (r ++ w).
Proof.
  destruct p as [|a s1]; [discriminate|]; cbn [ws_head append].
  destruct (is_space a); [congruence|].
  destruct s1 as [|b s2]; [discriminate|]; cbn [append]; destruct (ws2 a b); [congruence|].
  destruct s2 as [|c s3]; [discriminate|]; cbn [append]; destruct (ws3 a b c); congruence.
Qed.

Lemma ws_head_suffix (s r : string) :
  ws_head s = Some r -> exists q, s = q ++ r /\ String.length r < String.length s.
Proof.
  destruct s as [|a s1]; [discriminate|]; cbn [ws_head].
  destruct (is_space a).
  { intros H; inversion H; subst; exists (String a EmptyString); simpl; auto. }
  destruct s1 as [|b s2]; [discriminate|]; destruct (ws2 a b).
  { intros H; inversion H; subst; exists (String a (String b EmptyString)); simpl; auto. }
  destruct s2 as [|c s3]; [discriminate|]; destruct (ws3 a b c); [|discriminate].
  intros H; inversion H; subst; exists (String a (String b (String c EmptyString))); simpl; auto.
Qed.

Lemma lstrip_spec (s : string) :
  ws_head (lstrip s) = None /\ exists p, s = p ++ lstrip s.
Proof.
  remember (String.length s) as n eqn:Hn; revert s Hn.
  induction n as [n IH] using (well_founded_induction lt_wf); intros s Hn.
  rewrite lstrip_eq; destruct (ws_head s) as [r|] eqn:Hh.
  - destruct (ws_head_suffix s r Hh) as (q & Hq & Hl).
    destruct (IH (String.length r) ltac:(lia) r eq_refl) as [H1 (p & Hp)].
    split; [exact H1|exists (q ++ p)]; rewrite Hq, Hp at 1.
    clear; induction q; simpl; congruence.
  - split; [exact Hh|now exists EmptyString].
Qed.

Lemma lstrip_idem (s : string) : lstrip (lstrip s) = lstrip s.
Proof. rewrite lstrip_eq; now rewrite (proj1 (lstrip_spec s)). Qed.

Lemma rstrip_prefix (s : string) : exists w, s = rstrip s ++ w.
Proof.
  induction s as [|c s (w & Hw)]; [now exists EmptyString|]; cbn [rstrip].
  destruct (is_ws (String c (rstrip s))).
  - now exists (String c s).
  - exists w; simpl; congruence.
Qed.

Lemma rstrip_idem (s : string) : rstrip (rstrip s) = rstrip s.
Proof.
  induction s as [|c s IH]; [reflexivity|]; cbn [rstrip].
  destruct (is_ws (String c (rstrip s))) eqn:Hw; [reflexivity|].
  cbn [rstrip]; now rewrite IH, Hw.
Qed.

Lemma strip_idem (s : string) : strip (strip s) = strip s.
Proof.
  unfold strip; destruct (lstrip_spec s) as [Hh _].
  destruct (rstrip_prefix (lstrip s)) as (w & Hw).
  assert (Hn : ws_head (rstrip (lstrip s)) = None).
  { destruct (ws_head (rstrip (lstrip s))) as [r|] eqn:Hr; [|reflexivity].
    apply (ws_head_app _ w) in Hr; rewrite <- Hw, Hh in Hr; discriminate. }
  rewrite lstrip_eq, Hn; apply rstrip_idem.
Qed.

Lemma has_comma_app (p q : string) : has_comma (p ++ q) = has_comma p || has_comma q.
Proof. induction p as [|c p IH]; simpl; [reflexivity|now rewrite IH, orb_assoc]. Qed.

Lemma has_comma_remove_commas (s : string) : has_comma (remove_commas s) = false.
Proof.
  induction s as [|c s IH]; simpl; [reflexivity|].
  destruct (Ascii.eqb c ","%char) eqn:Hc; simpl; [exact IH|now rewrite Hc, IH].
Qed.

Lemma remove_commas_id (s : string) : has_comma s = false -> remove_commas s = s.
Proof.
  induction s as [|c s IH]; simpl; [reflexivity|].
  intros H; apply orb_false_iff in H as [Hc Hs]; rewrite Hc, IH; auto.
Qed.

Lemma has_comma_lstrip (s : string) : has_comma s = false -> has_comma (lstrip s) = false.
Proof.
  destruct (lstrip_spec s) as [_ (p & Hp)]; rewrite Hp at 1.
  rewrite has_comma_app; now intros [_ H]%orb_false_iff.
Qed.

Lemma has_comma_rstrip (s : string) : has_comma s = false -> has_comma (rstrip s) = false.
Proof.
  destruct (rstrip_prefix s) as (w & Hw); rewrite Hw at 1.
  rewrite has_comma_app; now intros [H _]%orb_false_iff.
Qed.

Lemma has_comma_strip (s : string) : has_comma s = false -> has_comma (strip s) = false.
Proof. intros H; apply has_comma_rstrip, has_comma_lstrip, H. Qed.

(** ** The loop body *)

Ltac split_body :=
  destruct (String.eqb _ "000"), (has_col "account_nm" _), (has_col "thstrm_amount" _).

Lemma body_none (f : Fetch) : body f = None <-> skipped f = true.
Proof.
  destruct f as [|[[st|] [[|r rows]|]]]; unfold body, skipped; cbn [status list_field];
    try tauto.
  split_body; simpl; split; congruence.
Qed.

Lemma body_return (f : Fetch) (df : list (string * string)) :
  body f = Some (Return df) <->
  exists rows, adoptable f = Some rows /\ df = map normalize_row rows.
Proof.
  destruct f as [|[[st|] [[|r rows]|]]]; unfold body, adoptable; cbn [status list_field];
    try (split; [discriminate|intros (? & ? & _); discriminate]).
  split_body; simpl; split; try discriminate; try (intros (? & ? & _); discriminate).
  - intros H; inversion H; subst; eauto.
  - intros (rows' & H & ->); now inversion H.
Qed.

Lemma candidates_single (y : Z) (rt : string) (order : list Scope) :
  candidates y [rt] order = map (fun d => mkCall y rt d) order.
Proof. induction order as [|d order IH]; simpl; [reflexivity|now rewrite IH]. Qed.

Lemma reprt_codes_override cur ov m y rt :
  ov = Some m -> assoc_Z y m = Some rt -> reprt_codes cur ov y = [rt].
Proof.
  intros -> Hm; unfold reprt_codes.
  destruct m; [discriminate|]; cbv beta iota; now rewrite Hm.
Qed.

Lemma first_exit_calls src (cs : list Call) (P : Call -> Prop) :
  Forall P cs -> Forall P (snd (first_exit src cs)).
Proof.
  intros HF; destruct (first_exit_prefix src cs) as [rest Hr].
  rewrite <- Hr in HF; now apply Forall_app in HF.
Qed.

(** ** C1: short circuit *)

(** C1. When a year is resolved, the calls made for it are a prefix of the
    candidate combinations ending at the adopted one; every earlier call was
    skipped, and the outcome is the same whatever the source answers for the
    combinations after it. *)
Theorem try_one_year_short_circuit src cur ov order y df tr :
  try_one_year src cur ov order y = (Adopted df, tr) ->
  exists pre c rest,
    tr = (pre ++ [c])%list /\
    (tr ++ rest)%list = candidates y (reprt_codes cur ov y) order /\
    Forall (fun c' => skipped (src c') = true) pre /\
    adoptable (src c) <> None /\
    forall src', (forall c', In c' tr -> src' c' = src c') ->
      try_one_year src' cur ov order y = (Adopted df, tr).
Proof.
  rewrite try_one_year_first_exit.
  destruct (first_exit src _) as [[[df'|e]|] tr'] eqn:He; try discriminate.
  intros H; inversion H; subst df' tr'; clear H.
  destruct (first_exit_some src _ _ _ He) as (pre & c & post & Hcs & Htr & HF & Hc).
  exists pre, c, post; repeat split.
  - exact Htr.
  - rewrite Htr, Hcs, <- app_assoc; reflexivity.
  - eapply Forall_impl; [|exact HF]; intros c' Hc'; now apply body_none.
  - apply body_return in Hc as (rows & Hrows & _); congruence.
  - intros src' Hag; rewrite try_one_year_first_exit.
    now rewrite (first_exit_ext src src' _ _ _ He Hag).
Qed.

(** ** C2: default report-type order *)

(** C2. Without an override entry for the year, the report codes tried are
    11011, 11012, 11013, 11014 for a past year and 11014, 11013, 11012, 11011
    for the current year, and the calls follow that list. *)
Theorem reprt_codes_default cur ov y :
  (forall m, ov = Some m -> assoc_Z y m = None) ->
  ((y < cur)%Z ->
     reprt_codes cur ov y = ["11011"; "11012"; "11013"; "11014"] /\
     forall src order, exists rest,
       (snd (try_one_year src cur ov order y) ++ rest)%list =
       candidates y ["11011"; "11012"; "11013"; "11014"] order) /\
  (y = cur ->
     reprt_codes cur ov y = ["11014"; "11013"; "11012"; "11011"] /\
     forall src order, exists rest,
       (snd (try_one_year src cur ov order y) ++ rest)%list =
       candidates y ["11014"; "11013"; "11012"; "11011"] order).
Proof.
  intros Hno.
  assert (Hcodes : reprt_codes cur ov y =
            if Z.ltb y cur then ["11011"; "11012"; "11013"; "11014"]
            else ["11014"; "11013"; "11012"; "11011"]).
  { unfold reprt_codes; destruct ov as [m|]; [|reflexivity].
    pose proof (Hno m eq_refl) as Hm.
    destruct m; cbv beta iota; [reflexivity|now rewrite Hm]. }
  assert (Htr : forall src order, exists rest,
            (snd (try_one_year src cur ov order y) ++ rest)%list =
            candidates y (reprt_codes cur ov y) order).
  { intros src order; rewrite try_one_year_first_exit.
    destruct (first_exit_prefix src (candidates y (reprt_codes cur ov y) order)) as [rest Hr].
    exists rest; destruct (first_exit src _) as [[[]|] tr]; exact Hr. }
  split; intros Hy.
  - assert (Hl : Z.ltb y cur = true) by (apply Z.ltb_lt; exact Hy).
    rewrite Hl in Hcodes; rewrite <- Hcodes; split; [reflexivity|exact Htr].
  - assert (Hl : Z.ltb y cur = false) by (apply Z.ltb_ge; lia).
    rewrite Hl in Hcodes; rewrite <- Hcodes; split; [reflexivity|exact Htr].
Qed.

(** ** C3: scope outer, report type inner *)

(** C3. For every year, the calls made are a prefix of the combinations
    listed scope by scope, every report type under one scope before the next
    scope. *)
Theorem try_one_year_nested_order src cur ov order y :
  exists rest,
    (snd (try_one_year src cur ov order y) ++ rest)%list =
    flat_map (fun d => map (fun rc => mkCall y rc d) (reprt_codes cur ov y)) order.
Proof.
  rewrite try_one_year_first_exit.
  destruct (first_exit_prefix src (candidates y (reprt_codes cur ov y) order)) as [rest Hr].
  exists rest; destruct (first_exit src _) as [[[]|] tr]; exact Hr.
Qed.

(** ** C4: override *)

(** C4. With an override [rt] for the year, every call for that year uses
    [rt], the calls are a prefix of one call per scope in order, and when
    nothing is found there was exactly one call per scope. *)
Theorem override_only_rt src cur ov m order y rt :
  ov = Some m -> assoc_Z y m = Some rt ->
  let (o, tr) := try_one_year src cur ov order y in
  Forall (fun c => c_year c = y /\ c_reprt_code c = rt) tr /\
  (exists rest, (tr ++ rest)%list = map (fun d => mkCall y rt d) order) /\
  (o = NotFound -> tr = map (fun d => mkCall y rt d) order).
Proof.
  intros Hov Hm.
  rewrite try_one_year_first_exit, (reprt_codes_override cur ov m y rt Hov Hm),
    candidates_single.
  assert (HF : Forall (fun c => c_year c = y /\ c_reprt_code c = rt)
                 (map (fun d => mkCall y rt d) order)).
  { apply Forall_forall; intros c Hin; apply in_map_iff in Hin as (d & <- & _); auto. }
  pose proof (first_exit_calls src _ _ HF) as HFtr.
  destruct (first_exit_prefix src (map (fun d => mkCall y rt d) order)) as [rest Hr].
  destruct (first_exit src _) as [[[df|e]|] tr] eqn:He; simpl in *;
    (split; [exact HFtr|split; [now exists rest|]]); try discriminate.
  intros _; now apply first_exit_none in He as [-> _].
Qed.

(** ** C8: normalisation of the adopted rows *)

(** C8. An adopted frame is the adopted response's rows with the account
    name stripped and the amount's commas removed then stripped; every
    account name and amount is then free of surrounding whitespace and no
    amount contains a comma. *)
Theorem adopted_rows_normalized src cur ov order y df tr :
  try_one_year src cur ov order y = (Adopted df, tr) ->
  exists c rows,
    In c tr /\ adoptable (src c) = Some rows /\
    df = map (fun r => (strip (cell "account_nm" r),
                        strip (remove_commas (cell "thstrm_amount" r)))) rows /\
    Forall (fun '(nm, amt) => strip nm = nm /\ strip amt = amt /\ has_comma amt = false) df.
Proof.
  rewrite try_one_year_first_exit.
  destruct (first_exit src _) as [[[df'|e]|] tr'] eqn:He; try discriminate.
  intros H; inversion H; subst df' tr'; clear H.
  destruct (first_exit_some src _ _ _ He) as (pre & c & post & _ & Htr & _ & Hc).
  apply body_return in Hc as (rows & Hrows & ->).
  exists c, rows; repeat split.
  - rewrite Htr; apply in_or_app; right; now left.
  - exact Hrows.
  - apply Forall_forall; intros [nm amt] Hin.
    apply in_map_iff in Hin as (r & Hr & _); unfold normalize_row, normalize_amount in Hr.
    inversion Hr; subst; clear Hr.
    split; [apply strip_idem|split; [apply strip_idem|]].
    apply has_comma_strip, has_comma_remove_commas.
Qed.

(** ** C9: idempotent amount normalisation *)

(** C9. Removing commas then stripping whitespace is idempotent. *)
Theorem normalize_amount_idem (s : string) :
  normalize_amount (normalize_amount s) = normalize_amount s.
Proof.
  unfold normalize_amount at 1.
  rewrite remove_commas_id by (apply has_comma_strip, has_comma_remove_commas).
  apply strip_idem.
Qed.

(** ** C10: unrecognised scope mode *)

(** C10. Any [fs_mode] other than CFS_ONLY, OFS_ONLY and AUTO_OFS_CFS gives
    the order CFS then OFS, and the whole resolution behaves as with
    AUTO_CFS_OFS. *)
Theorem fs_mode_unrecognized (fs_mode : string) :
  fs_mode <> "CFS_ONLY" -> fs_mode <> "OFS_ONLY" -> fs_mode <> "AUTO_OFS_CFS" ->
  fs_div_order_of fs_mode = [CFS; OFS] /\
  forall src cur ov key corp,
    get_financial_statements src cur ov key corp fs_mode =
    get_financial_statements src cur ov key corp "AUTO_CFS_OFS".
Proof.
  intros H1 H2 H3.
  assert (Ho : fs_div_order_of fs_mode = [CFS; OFS]).
  { unfold fs_div_order_of.
    apply String.eqb_neq in H1, H2, H3; now rewrite H1, H2, H3. }
  split; [exact Ho|].
  intros src cur ov key corp; unfold get_financial_statements; now rewrite Ho.
Qed.

(** ** C5: which response is adopted *)

(** C5 (amended). A year is adopted with frame [df] and calls [tr] exactly
    when, in the candidate order, every earlier combination was skipped
    (request error, status other than ["000"], empty or missing list, or no
    row with either field) and the adopted one has status ["000"], a
    non-empty list and both fields among its rows' keys. *)
Theorem try_one_year_adopts_first_adoptable src cur ov order y df tr :
  try_one_year src cur ov order y = (Adopted df, tr) <->
  exists pre c post rows,
    candidates y (reprt_codes cur ov y) order = (pre ++ c :: post)%list /\
    Forall (fun c' => skipped (src c') = true) pre /\
    adoptable (src c) = Some rows /\ df = map normalize_row rows /\
    tr = (pre ++ [c])%list.
Proof.
  rewrite try_one_year_first_exit; split.
  - destruct (first_exit src _) as [[[df'|e]|] tr'] eqn:He; try discriminate.
    intros H; inversion H; subst df' tr'; clear H.
    destruct (first_exit_some src _ _ _ He) as (pre & c & post & Hcs & Htr & HF & Hc).
    apply body_return in Hc as (rows & Hrows & Hdf).
    exists pre, c, post, rows; repeat split; auto.
    eapply Forall_impl; [|exact HF]; intros c' Hc'; now apply body_none.
  - intros (pre & c & post & rows & Hcs & HF & Hrows & Hdf & Htr).
    rewrite Hcs, (first_exit_some_intro src pre post c (Return df)), Htr; [reflexivity| |].
    + eapply Forall_impl; [|exact HF]; intros c' Hc'; now apply body_none.
    + apply body_return; eauto.
Qed.

(** A response whose rows carry the two fields only in different rows. *)
Definition split_fields_resp : Fetch :=
  FetchJson (mkResponse (Some "000")
    (Some [[("account_nm", "매출액")]; [("thstrm_amount", "100")]])).

(** C5 as stated fails: that response has no row with both fields, yet it is
    adopted (the check is on the frame's columns). *)
Lemma try_one_year_adopts_split_fields :
  existsb row_has_both [[("account_nm", "매출액")]; [("thstrm_amount", "100")]] = false /\
  try_one_year (fun _ => split_fields_resp) 2025 None [CFS; OFS] 2024 =
    (Adopted [("매출액", "nan"); ("nan", "100")], [mkCall 2024 "11011" CFS]).
Proof. split; reflexivity. Qed.

(** ** C6: an exception escapes the resolver *)

(** A response whose rows carry [account_nm] but no [thstrm_amount]. *)
Definition one_field_resp : Fetch :=
  FetchJson (mkResponse (Some "000") (Some [[("account_nm", "매출액")]])).

(** C6. On that response the frame keeps only [account_nm], and reading
    [df["thstrm_amount"]] raises [KeyError] out of
    [get_financial_statements] at the first call. *)
Theorem get_financial_statements_one_field_raises :
  get_financial_statements (fun _ => one_field_resp) 2025 None "key" (Some "00126380")
    "AUTO_CFS_OFS" =
  (Raised "KeyError: 'thstrm_amount'", [mkCall 2020 "11011" CFS]).
Proof. reflexivity. Qed.

(** ** C7: missing key or company code *)

(** C7 as stated fails: with no API key the result holds no year at all,
    only the message entry, instead of an empty frame per year. *)
Lemma get_financial_statements_no_key_not_per_year :
  get_financial_statements (fun _ => FetchError) 2025 None "" (Some "00126380")
    "AUTO_CFS_OFS" = (Ok [("재무제표", FMessage no_data_msg)], []) /\
  fst (get_financial_statements (fun _ => FetchError) 2025 None "" (Some "00126380")
         "AUTO_CFS_OFS")
  <> Ok (map (fun y => (Z_to_string y, FRows [])) (years_range 2025)).
Proof. split; [reflexivity|discriminate]. Qed.

(** C7 (amended). Without an API key or a company code the resolver makes no
    call and returns only the ["재무제표"] entry with the no-data message. *)
Theorem get_financial_statements_missing_credentials src cur ov key corp fs_mode :
  key = EmptyString \/ corp = None \/ corp = Some EmptyString ->
  get_financial_statements src cur ov key corp fs_mode =
  (Ok [("재무제표", FMessage no_data_msg)], []).
Proof.
  intros [-> | [-> | ->]]; unfold get_financial_statements;
    [reflexivity|destruct key; reflexivity|destruct key; reflexivity].
Qed.

(** ** Worked examples of the spec (section 8) *)

Definition sample_ok : Fetch :=
  FetchJson (mkResponse (Some "000")
    (Some [[("rcept_no", "20240514000001"); ("account_nm", " 매출액 ");
            ("thstrm_amount", "1,234,567 ")]])).

Definition sample_none : Fetch :=
  FetchJson (mkResponse (Some "013") None).

(** CFS/11011/2023 and OFS/11014/2024 have rows; everything else is empty. *)
Definition sample_src (c : Call) : Fetch :=
  match c_fs_div c with
  | CFS => if Z.eqb (c_year c) 2023 && String.eqb (c_reprt_code c) "11011"
           then sample_ok else sample_none
  | OFS => if Z.eqb (c_year c) 2024 && String.eqb (c_reprt_code c) "11014"
           then sample_ok else sample_none
  end.

Definition sample_df : list (string * string) := [("매출액", "1234567")].

Definition sample_tr_2024 : list Call :=
  [mkCall 2024 "11014" CFS; mkCall 2024 "11013" CFS; mkCall 2024 "11012" CFS;
   mkCall 2024 "11011" CFS; mkCall 2024 "11014" OFS].

Example sample_2023 :
  try_one_year sample_src 2024 None [CFS; OFS] 2023 =
  (Adopted sample_df, [mkCall 2023 "11011" CFS]).
Proof. reflexivity. Qed.

Example sample_2024 :
  try_one_year sample_src 2024 None [CFS; OFS] 2024 = (Adopted sample_df, sample_tr_2024).
Proof. reflexivity. Qed.

Example sample_override :
  try_one_year sample_src 2024 (Some [(2024%Z, "11013")]) [OFS] 2024 =
  (NotFound, [mkCall 2024 "11013" OFS]).
Proof. reflexivity. Qed.

(** ** Witnesses *)

Lemma try_one_year_short_circuit_witness :
  try_one_year sample_src 2024 None [CFS; OFS] 2024 = (Adopted sample_df, sample_tr_2024) /\
  exists pre c rest,
    sample_tr_2024 = (pre ++ [c])%list /\
    (sample_tr_2024 ++ rest)%list = candidates 2024 (reprt_codes 2024 None 2024) [CFS; OFS] /\
    Forall (fun c' => skipped (sample_src c') = true) pre /\
    adoptable (sample_src c) <> None /\
    forall src', (forall c', In c' sample_tr_2024 -> src' c' = sample_src c') ->
      try_one_year src' 2024 None [CFS; OFS] 2024 = (Adopted sample_df, sample_tr_2024).
Proof.
  split; [reflexivity|].
  apply try_one_year_short_circuit; reflexivity.
Defined.

Lemma reprt_codes_default_witness :
  reprt_codes 2024 (Some [(2024%Z, "11013")]) 2023 = ["11011"; "11012"; "11013"; "11014"] /\
  reprt_codes 2024 None 2024 = ["11014"; "11013"; "11012"; "11011"].
Proof.
  split.
  - apply (reprt_codes_default 2024 (Some [(2024%Z, "11013")]) 2023).
    + intros m Hm; inversion Hm; reflexivity.
    + lia.
  - apply (reprt_codes_default 2024 None 2024).
    + intros m Hm; discriminate Hm.
    + reflexivity.
Defined.

Lemma override_only_rt_witness :
  let (o, tr) := try_one_year sample_src 2024 (Some [(2024%Z, "11013")]) [OFS] 2024 in
  Forall (fun c => c_year c = 2024%Z /\ c_reprt_code c = "11013") tr /\
  (exists rest, (tr ++ rest)%list = map (fun d => mkCall 2024 "11013" d) [OFS]) /\
  (o = NotFound -> tr = map (fun d => mkCall 2024 "11013" d) [OFS]).
Proof.
  apply (override_only_rt sample_src 2024 (Some [(2024%Z, "11013")]) [(2024%Z, "11013")]
           [OFS] 2024 "11013"); reflexivity.
Defined.

Lemma adopted_rows_normalized_witness :
  exists c rows,
    In c sample_tr_2024 /\ adoptable (sample_src c) = Some rows /\
    sample_df = map (fun r => (strip (cell "account_nm" r),
                               strip (remove_commas (cell "thstrm_amount" r)))) rows /\
    Forall (fun '(nm, amt) => strip nm = nm /\ strip amt = amt /\ has_comma amt = false)
      sample_df.
Proof.
  apply (adopted_rows_normalized sample_src 2024 None [CFS; OFS] 2024); reflexivity.
Defined.

Lemma fs_mode_unrecognized_witness :
  fs_div_order_of "AUTO" = [CFS; OFS] /\
  get_financial_statements sample_src 2024 None "key" (Some "00126380") "AUTO" =
  get_financial_statements sample_src 2024 None "key" (Some "00126380") "AUTO_CFS_OFS".
Proof.
  destruct (fs_mode_unrecognized "AUTO") as [H1 H2]; try discriminate.
  split; [exact H1|apply H2].
Defined.

Lemma get_financial_statements_missing_credentials_witness :
  get_financial_statements sample_src 2024 None "key" None "AUTO_CFS_OFS" =
  (Ok [("재무제표", FMessage no_data_msg)], []).
Proof.
  apply get_financial_statements_missing_credentials; right; left; reflexivity.
Defined.

(** * Further code of [src/stock_analyzer(streamlit).py] *)

(** ** [get_corp_code] *)

(** The corpCode download: the request, the ZIP or the XML parse raised, or
    the [<list>] nodes of CORPCODE.xml as the pairs
    ([node.findtext("corp_name", "")], [node.findtext("corp_code", "")]). *)
Inductive CorpFetch :=
| CorpFailed
| CorpXml (nodes : list (string * string)).

(** [for node in root.findall("list"): nm = (...).strip(); if nm == corp_name: return ...] *)
Fixpoint find_corp (corp_name : string) (nodes : list (string * string)) : option string :=
  match nodes with
  | [] => None
  | (nm, cd) :: nodes' =>
      if String.eqb (strip nm) corp_name then Some (strip cd) else find_corp corp_name nodes'
  end.

(** [get_corp_code(corp_name)] with the module-level [DART_API_KEY]; the
    boolean says whether the corpCode request was sent. *)
Definition get_corp_code (dart_api_key : string) (fetch : CorpFetch) (corp_name : string)
  : option string * bool :=
  match dart_api_key with
  | EmptyString => (None, false)
  | _ => (match fetch with
          | CorpFailed => None
          | CorpXml nodes => find_corp corp_name nodes
          end, true)
  end.

(** ** [get_secret] *)

(** [st.secrets.get(name, default)]: raised, or the stored value if any. *)
Inductive Secrets :=
| SecretsError
| SecretsVal (v : option string).

(** [get_secret(name, default)]: [env] is [os.getenv(name)], [st_loaded]
    says whether [import streamlit] succeeded. *)
Definition get_secret (env : option string) (st_loaded : bool) (secrets : Secrets)
    (default : string) : string :=
  let v :=
    match env with
    | Some (String _ _ as e) => Some e
    | _ =>
        if st_loaded then
          Some (match secrets with
                | SecretsError => default
                | SecretsVal (Some s) => s
                | SecretsVal None => default
                end)
        else env
    end in
  match v with
  | Some s => strip s
  | None => default
  end.

Lemma ws_head_ws (w r : string) : is_ws w = true -> ws_head (w ++ r) = Some r.
Proof.
  destruct w as [|a [|b [|c [|d w]]]]; cbn [is_ws]; try discriminate; intros H.
  - cbn; now rewrite H.
  - assert (Ha : is_space a = false).
    { unfold ws2 in H; apply andb_true_iff in H as [H _]; apply N.eqb_eq in H.
      unfold is_space, nat_of_ascii; now rewrite H. }
    cbn; now rewrite Ha, H.
  - assert (Ha : is_space a = false /\ ws2 a b = false).
    { unfold ws3 in H; unfold is_space, ws2, nat_of_ascii.
      repeat (apply orb_true_iff in H as [H|H]);
        repeat (apply andb_true_iff in H as [H ?]); apply N.eqb_eq in H;
        rewrite H; auto. }
    destruct Ha as [Ha Hb]; cbn; now rewrite Ha, Hb, H.
Qed.

Lemma lstrip_ws (ws : list string) :
  Forall (fun w => is_ws w = true) ws -> lstrip (fold_right append EmptyString ws) = EmptyString.
Proof.
  induction 1 as [|w ws Hw _ IH]; [reflexivity|]; simpl.
  rewrite lstrip_eq, ws_head_ws by exact Hw; exact IH.
Qed.

Lemma find_corp_stripped (name cc : string) (nodes : list (string * string)) :
  find_corp name nodes = Some cc -> strip cc = cc.
Proof.
  induction nodes as [|[nm cd] nodes IH]; simpl; [discriminate|].
  destruct (String.eqb (strip nm) name); [intros H; inversion H; apply strip_idem|exact IH].
Qed.

(** X1. The code found is the stripped code of the first node whose stripped
    name equals the requested name. *)
Theorem get_corp_code_first_match key nodes name cc :
  fst (get_corp_code key (CorpXml nodes) name) = Some cc <->
  key <> EmptyString /\
  exists pre nm cd post,
    nodes = (pre ++ (nm, cd) :: post)%list /\
    Forall (fun p => strip (fst p) <> name) pre /\
    strip nm = name /\ cc = strip cd.
Proof.
  unfold get_corp_code.
  assert (Hf : find_corp name nodes = Some cc <->
               exists pre nm cd post,
                 nodes = (pre ++ (nm, cd) :: post)%list /\
                 Forall (fun p => strip (fst p) <> name) pre /\
                 strip nm = name /\ cc = strip cd).
  { induction nodes as [|[nm cd] nodes IH]; simpl.
    - split; [discriminate|intros (pre & ? & ? & ? & H & _); now destruct pre].
    - destruct (String.eqb (strip nm) name) eqn:He.
      + apply String.eqb_eq in He; split.
        * intros H; inversion H; exists [], nm, cd, nodes; auto.
        * intros ([|p pre] & nm' & cd' & post & Hn & HF & Hs & ->); simpl in Hn;
            inversion Hn; subst; [reflexivity|].
          inversion HF; subst; simpl in *; contradiction.
      + apply String.eqb_neq in He; rewrite IH; split.
        * intros (pre & nm' & cd' & post & -> & HF & Hs & ->).
          exists ((nm, cd) :: pre), nm', cd', post; simpl; auto.
        * intros ([|p pre] & nm' & cd' & post & Hn & HF & Hs & ->); simpl in Hn;
            inversion Hn; subst; [contradiction|].
          inversion HF; subst; exists pre, nm', cd', post; auto. }
  destruct key as [|a k]; simpl.
  - split; [discriminate|intros [H _]; now contradiction H].
  - rewrite Hf; split; [intros H; split; [discriminate|exact H]|intros [_ H]; exact H].
Qed.

(** X2. A name with surrounding whitespace (ASCII or Unicode) never
    matches: the XML names are stripped before the comparison, the requested
    name is not. *)
Theorem get_corp_code_unstripped_name key fetch name :
  strip name <> name -> fst (get_corp_code key fetch name) = None.
Proof.
  intros Hn; unfold get_corp_code.
  destruct key; [reflexivity|]; destruct fetch as [|nodes]; [reflexivity|]; simpl.
  induction nodes as [|[nm cd] nodes IH]; simpl; [reflexivity|].
  destruct (String.eqb (strip nm) name) eqn:He; [|exact IH].
  apply String.eqb_eq in He; subst name; now rewrite strip_idem in Hn.
Qed.


(** The value [get_secret] strips: a concatenation of whitespace characters. *)
Definition ws_string (ws : list string) : string := fold_right append EmptyString ws.

(** X4. A DART key whose raw value, from the environment or else from the
    Streamlit secrets, is made of whitespace characters only (ASCII or
    Unicode) is stripped by [get_secret] to the empty string, so
    [DART_API_KEY = get_secret("DART_API_KEY")] counts as missing and
    [get_financial_statements] makes no DART call. *)
Theorem whitespace_key_no_dart_call ws env st_loaded secrets src cur ov corp fs_mode :
  Forall (fun w => is_ws w = true) ws ->
  (env = Some (ws_string ws) /\ ws <> []) \/
  ((env = None \/ env = Some EmptyString) /\ st_loaded = true /\
   secrets = SecretsVal (Some (ws_string ws))) ->
  get_secret env st_loaded secrets EmptyString = EmptyString /\
  get_financial_statements src cur ov (get_secret env st_loaded secrets EmptyString)
    corp fs_mode = (Ok [("재무제표", FMessage no_data_msg)], []).
Proof.
  intros Hws Hsrc.
  assert (Hk : get_secret env st_loaded secrets EmptyString = EmptyString).
  { pose proof (lstrip_ws ws Hws) as Hl; fold (ws_string ws) in Hl.
    destruct Hsrc as [[-> Hne]|[[-> | ->] [-> ->]]].
    - destruct ws as [|w ws']; [congruence|]; inversion Hws as [|? ? Hw _]; subst.
      destruct w as [|a w]; [discriminate|].
      change (ws_string (String a w :: ws')) with (String a (w ++ ws_string ws')) in Hl |- *.
      unfold get_secret; cbv beta iota; unfold strip; now rewrite Hl.
    - unfold get_secret; cbv beta iota; unfold strip; now rewrite Hl.
    - unfold get_secret; cbv beta iota; unfold strip; now rewrite Hl. }
  split; [exact Hk|]; rewrite Hk; reflexivity.
Qed.

(** ** [str(year)] *)

Fixpoint has_char (ch : ascii) (s : string) : bool :=
  match s with
  | EmptyString => false
  | String c s' => Ascii.eqb c ch || has_char ch s'
  end.

Lemma Z_to_string_inj (a b : Z) : Z_to_string a = Z_to_string b -> a = b.
Proof.
  unfold Z_to_string; intros H.
  assert (Hn : forall z, Z.to_int z <> Decimal.Pos Decimal.Nil /\
                         Z.to_int z <> Decimal.Neg Decimal.Nil).
  { intros [|p|p]; simpl; split; try discriminate;
      intros Hp; inversion Hp; now apply (DecimalPos.Unsigned.to_uint_nonnil p). }
  apply (f_equal NilEmpty.int_of_string) in H.
  rewrite !NilEmpty.isi in H by apply Hn.
  inversion H as [Hi].
  now rewrite <- (DecimalZ.of_to a), <- (DecimalZ.of_to b), Hi.
Qed.

Lemma string_of_uint_no_pipe (d : Decimal.uint) :
  has_char "|"%char (NilEmpty.string_of_uint d) = false.
Proof. induction d; simpl; auto. Qed.

Lemma Z_to_string_no_pipe (y : Z) : has_char "|"%char (Z_to_string y) = false.
Proof.
  unfold Z_to_string, NilEmpty.string_of_int.
  destruct (Z.to_int y); simpl; apply string_of_uint_no_pipe.
Qed.

(** ** [_params_key] and [load_data_by_button] *)

(** [_params_key(target_name, ticker, sel_year, sel_code, fs_mode)] *)
Definition params_key (target_name ticker : string) (sel_year : Z)
    (sel_code fs_mode : string) : string :=
  target_name ++ "|" ++ ticker ++ "|" ++ Z_to_string sel_year ++ "|" ++
  sel_code ++ "|" ++ fs_mode.

(** Requests made by a load. *)
Inductive Event :=
| EvCorpCode                          (* corpCode.xml *)
| EvDart (corp_code : string) (c : Call)
| EvStock (ticker : string).          (* get_stock_data(ticker) *)

Section Session.

(** The DataFrame returned by [get_stock_data], and [pd.DataFrame()]. *)
Variable StockDF : Type.
Variable empty_stock : StockDF.
Variable get_stock_data : string -> StockDF.
(** The module-level [DART_API_KEY], the corpCode download, the statement
    endpoint for each corp_code, and [END_DATE.year]. *)
Variable dart_api_key : string.
Variable corp_fetch : CorpFetch.
Variable dart : string -> Call -> Fetch.
Variable current_year : Z.

(** [st.session_state]: [DATA_KEY], [STOCK_DF], [FS_DATA]. *)
Record Session := mkSession {
  DATA_KEY : option string;
  STOCK_DF : option StockDF;
  FS_DATA : option (list (string * Frame))
}.

Inductive LoadResult :=
| LoadOk (stock_df : StockDF) (fs_data : list (string * Frame))
| LoadRaised (e : string).

(** [return st.session_state.get("STOCK_DF", pd.DataFrame()),
           st.session_state.get("FS_DATA", {})] *)
Definition session_data (s : Session) : LoadResult :=
  LoadOk (match STOCK_DF s with Some d => d | None => empty_stock end)
         (match FS_DATA s with Some d => d | None => [] end).

(** The branch taken when the parameters changed or on the first run. *)
Definition load_fresh (s : Session) (target_name ticker : string)
    (sel_year : Z) (sel_code fs_mode key : string) : LoadResult * Session * list Event :=
  let (corp_code, requested) := get_corp_code dart_api_key corp_fetch target_name in
  let ev0 := if requested then [EvCorpCode] else [] in
  let '(fs, evs) :=
    match corp_code with
    | Some (String _ _ as cc) =>
        (* reprt_overrides = {sel_year: sel_code} *)
        let (r, tr) := get_financial_statements (dart cc) current_year
                          (Some [(sel_year, sel_code)]) dart_api_key (Some cc) fs_mode in
        (r, map (EvDart cc) tr)
    | _ => (Ok [("재무제표", FMessage "데이터 없음")], [])
    end in
  match fs with
  | Raised e => (LoadRaised e, s, (ev0 ++ evs)%list)
  | Ok d =>
      let stock_df := get_stock_data ticker in
      (LoadOk stock_df d, mkSession (Some key) (Some stock_df) (Some d),
       (ev0 ++ evs ++ [EvStock ticker])%list)
  end.

(** [load_data_by_button(target_name, ticker, sel_year, sel_code, fs_mode)]:
    the new session state, and the requests made. *)
Definition load_data_by_button (s : Session) (target_name ticker : string)
    (sel_year : Z) (sel_code fs_mode : string) : LoadResult * Session * list Event :=
  let key := params_key target_name ticker sel_year sel_code fs_mode in
  if match DATA_KEY s with Some k => String.eqb k key | None => false end
  then (session_data s, s, [])
  else load_fresh s target_name ticker sel_year sel_code fs_mode key.

End Session.

Arguments mkSession {StockDF}.
Arguments DATA_KEY {StockDF}.
Arguments STOCK_DF {StockDF}.
Arguments FS_DATA {StockDF}.
Arguments LoadOk {StockDF}.
Arguments LoadRaised {StockDF}.

(** ** Calls made by [get_financial_statements] *)

Lemma in_candidates (c : Call) (y : Z) (codes : list string) (order : list Scope) :
  In c (candidates y codes order) -> c_year c = y /\ In (c_reprt_code c) codes.
Proof.
  unfold candidates; intros Hin; apply in_flat_map in Hin as (d & _ & Hin).
  apply in_map_iff in Hin as (rc & <- & Hrc); simpl; auto.
Qed.

Lemma try_one_year_calls src cur ov order y (c : Call) :
  In c (snd (try_one_year src cur ov order y)) ->
  c_year c = y /\ In (c_reprt_code c) (reprt_codes cur ov y).
Proof.
  intros Hin; apply in_candidates with (order := order).
  destruct (try_one_year_nested_order src cur ov order y) as [rest Hr].
  fold (candidates y (reprt_codes cur ov y) order) in Hr.
  rewrite <- Hr; apply in_or_app; now left.
Qed.

Lemma for_years_calls src cur ov order (ys : list Z) (c : Call) :
  In c (snd (for_years src cur ov order ys)) ->
  In (c_year c) ys /\ In (c_reprt_code c) (reprt_codes cur ov (c_year c)).
Proof.
  induction ys as [|y ys IH]; simpl; [tauto|].
  pose proof (try_one_year_calls src cur ov order y) as Hy.
  destruct (try_one_year src cur ov order y) as [o tr]; simpl in Hy.
  assert (Htr : In c tr -> (y = c_year c \/ In (c_year c) ys) /\
                           In (c_reprt_code c) (reprt_codes cur ov (c_year c))).
  { intros Hc; destruct (Hy c Hc) as [<- Hr]; auto. }
  assert (Hrest : In c (snd (for_years src cur ov order ys)) ->
                  (y = c_year c \/ In (c_year c) ys) /\
                  In (c_reprt_code c) (reprt_codes cur ov (c_year c))).
  { intros Hc; destruct (IH Hc); auto. }
  destruct o; try (simpl; exact Htr);
    destruct (for_years src cur ov order ys) as [[d|e] tr']; simpl in *;
    intros Hin; apply in_app_or in Hin as [Hin|Hin]; auto.
Qed.

Lemma get_financial_statements_calls src cur ov key corp fs_mode (c : Call) :
  In c (snd (get_financial_statements src cur ov key corp fs_mode)) ->
  In (c_year c) (years_range cur) /\ In (c_reprt_code c) (reprt_codes cur ov (c_year c)).
Proof.
  unfold get_financial_statements.
  destruct key as [|k0 key], corp as [[|a cc]|]; cbv beta iota; try (simpl; tauto);
    apply for_years_calls.
Qed.

(** X5. Every DART call of [get_financial_statements] is for one of the six
    years [current_year - 5] .. [current_year]. *)
Theorem get_financial_statements_years src cur ov key corp fs_mode (c : Call) :
  In c (snd (get_financial_statements src cur ov key corp fs_mode)) ->
  (cur - 5 <= c_year c <= cur)%Z.
Proof.
  intros Hin; apply get_financial_statements_calls in Hin as [Hy _].
  unfold years_range in Hy; apply in_map_iff in Hy as (i & <- & Hi).
  apply in_seq in Hi; lia.
Qed.

(** ** [_params_key] *)

Lemma sep_inj (a a' r r' : string) :
  has_char "|"%char a = false -> has_char "|"%char a' = false ->
  a ++ String "|" r = a' ++ String "|" r' -> a = a' /\ r = r'.
Proof.
  revert a'; induction a as [|ch a IH]; intros [|ch' a'] Ha Ha' H; simpl in *.
  - inversion H; auto.
  - inversion H; subst; now rewrite Ascii.eqb_refl in Ha'.
  - inversion H; subst; now rewrite Ascii.eqb_refl in Ha.
  - apply orb_false_iff in Ha as [_ Ha]; apply orb_false_iff in Ha' as [_ Ha'].
    inversion H; subst; destruct (IH a' Ha Ha' H2); subst; auto.
Qed.

(** X6. When the company name, the ticker and the report code contain no
    ['|'], the session key determines the five parameters. *)
Theorem params_key_injective t1 k1 y1 c1 m1 t2 k2 y2 c2 m2 :
  has_char "|"%char t1 = false -> has_char "|"%char t2 = false ->
  has_char "|"%char k1 = false -> has_char "|"%char k2 = false ->
  has_char "|"%char c1 = false -> has_char "|"%char c2 = false ->
  params_key t1 k1 y1 c1 m1 = params_key t2 k2 y2 c2 m2 ->
  t1 = t2 /\ k1 = k2 /\ y1 = y2 /\ c1 = c2 /\ m1 = m2.
Proof.
  unfold params_key; simpl; intros Ht1 Ht2 Hk1 Hk2 Hc1 Hc2 H.
  apply sep_inj in H as [-> H]; auto.
  apply sep_inj in H as [-> H]; auto.
  apply sep_inj in H as [Hy H]; try apply Z_to_string_no_pipe.
  apply sep_inj in H as [-> ->]; auto.
  apply Z_to_string_inj in Hy; auto.
Qed.

Lemma string_app_assoc (a b c : string) : (a ++ b) ++ c = a ++ (b ++ c).
Proof. induction a as [|ch a IH]; simpl; [reflexivity|now rewrite IH]. Qed.

Lemma params_key_shift (a b c : string) y code mode :
  params_key (a ++ "|" ++ b) c y code mode = params_key a (b ++ "|" ++ c) y code mode.
Proof. unfold params_key; now rewrite !string_app_assoc. Qed.

Section LoadProps.

Variable StockDF : Type.
Variable empty_stock : StockDF.
Variable get_stock_data : string -> StockDF.
Variable dart_api_key : string.
Variable corp_fetch : CorpFetch.
Variable dart : string -> Call -> Fetch.
Variable current_year : Z.

Notation load := (load_data_by_button StockDF empty_stock get_stock_data dart_api_key
                    corp_fetch dart current_year).

Lemma load_fresh_session s t k y c m key r s' ev :
  load_fresh StockDF get_stock_data dart_api_key corp_fetch dart current_year
    s t k y c m key = (r, s', ev) ->
  (exists e, r = LoadRaised e /\ s' = s) \/
  (exists sdf d, r = LoadOk sdf d /\ s' = mkSession (Some key) (Some sdf) (Some d)).
Proof.
  unfold load_fresh.
  destruct (get_corp_code dart_api_key corp_fetch t) as [[[|a cc]|] req];
    [| destruct (get_financial_statements _ _ _ _ _ _) as [[d|e] tr] |];
    intros H; inversion H; subst; eauto 6.
Qed.

Lemma load_ok_session s t k y c m sdf d s' ev :
  load s t k y c m = (LoadOk sdf d, s', ev) ->
  DATA_KEY s' = Some (params_key t k y c m) /\ session_data StockDF empty_stock s' = LoadOk sdf d.
Proof.
  unfold load_data_by_button; cbv zeta.
  destruct (DATA_KEY s) as [k0|] eqn:Hk.
  - destruct (String.eqb k0 (params_key t k y c m)) eqn:He.
    + intros H; inversion H; subst.
      apply String.eqb_eq in He; subst; auto.
    + intros H; destruct (load_fresh_session _ _ _ _ _ _ _ _ _ _ H)
        as [(e & He' & _) | (sdf' & d' & Hr & ->)]; [discriminate|].
      inversion Hr; subst; auto.
  - intros H; destruct (load_fresh_session _ _ _ _ _ _ _ _ _ _ H)
      as [(e & He' & _) | (sdf' & d' & Hr & ->)]; [discriminate|].
    inversion Hr; subst; auto.
Qed.

Lemma load_same_key s t k y c m t' k' y' c' m' :
  params_key t' k' y' c' m' = params_key t k y c m ->
  DATA_KEY s = Some (params_key t k y c m) ->
  load s t' k' y' c' m' = (session_data StockDF empty_stock s, s, []).
Proof.
  intros Hp Hs; unfold load_data_by_button; cbv zeta.
  now rewrite Hs, Hp, String.eqb_refl.
Qed.

(** X7. A second load with the same parameters makes no request and returns
    what the first one returned. *)
Theorem load_data_by_button_cached s t k y c m sdf d s' ev :
  load_data_by_button StockDF empty_stock get_stock_data dart_api_key corp_fetch dart
      current_year s t k y c m = (LoadOk sdf d, s', ev) ->
  load_data_by_button StockDF empty_stock get_stock_data dart_api_key corp_fetch dart
      current_year s' t k y c m = (LoadOk sdf d, s', []).
Proof.
  intros H; apply load_ok_session in H as [Hk Hd].
  rewrite (load_same_key s' t k y c m t k y c m eq_refl Hk), Hd; reflexivity.
Qed.

(** X8. The key joins the fields with ['|'] unescaped, so after loading for
    company [a|b] and ticker [c], a load for company [a] and ticker [b|c]
    makes no request and returns the data of the first company. *)
Theorem load_data_by_button_key_collision s a b c y code mode sdf d s' ev :
  load_data_by_button StockDF empty_stock get_stock_data dart_api_key corp_fetch dart
      current_year s (a ++ "|" ++ b) c y code mode = (LoadOk sdf d, s', ev) ->
  load_data_by_button StockDF empty_stock get_stock_data dart_api_key corp_fetch dart
      current_year s' a (b ++ "|" ++ c) y code mode = (LoadOk sdf d, s', []).
Proof.
  intros H; apply load_ok_session in H as [Hk Hd].
  rewrite (load_same_key s' _ _ _ _ _ a (b ++ "|" ++ c) y code mode
             (eq_sym (params_key_shift a b c y code mode)) Hk), Hd; reflexivity.
Qed.

Lemma load_dart_events s t k y c m r s' ev cc call :
  load s t k y c m = (r, s', ev) -> In (EvDart cc call) ev ->
  fst (get_corp_code dart_api_key corp_fetch t) = Some cc /\
  In call (snd (get_financial_statements (dart cc) current_year
                  (Some [(y, c)]) dart_api_key (Some cc) m)).
Proof.
  unfold load_data_by_button; cbv zeta.
  destruct (match DATA_KEY s with Some k0 => _ | None => false end).
  { intros H; inversion H; subst; intros []. }
  unfold load_fresh.
  destruct (get_corp_code dart_api_key corp_fetch t) as [corp req] eqn:Hc.
  assert (H0 : ~ In (EvDart cc call) (if req then [EvCorpCode] else [])).
  { destruct req; simpl; [intros [H|[]]|intros []]; discriminate. }
  assert (Hnone : forall evs : list Event, evs = [] ->
            ~ In (EvDart cc call) ((if req then [EvCorpCode] else []) ++ evs ++ [EvStock k])).
  { intros evs -> Hin; apply in_app_or in Hin as [Hin|Hin]; [contradiction|].
    destruct Hin as [Hin|[]]; discriminate. }
  destruct corp as [[|a cc0]|].
  - intros H; inversion H; subst; intros Hin; exfalso; exact (Hnone [] eq_refl Hin).
  - destruct (get_financial_statements (dart (String a cc0)) current_year
                (Some [(y, c)]) dart_api_key (Some (String a cc0)) m) as [[d|e] tr] eqn:Hg;
      intros H; inversion H; subst; clear H; intros Hin;
      apply in_app_or in Hin as [Hin|Hin]; try contradiction.
    + apply in_app_or in Hin as [Hin|Hin]; [|destruct Hin as [Hin|[]]; discriminate].
      apply in_map_iff in Hin as (call' & Heq & Hin); inversion Heq; subst.
      split; [reflexivity|now rewrite Hg].
    + apply in_map_iff in Hin as (call' & Heq & Hin); inversion Heq; subst.
      split; [reflexivity|now rewrite Hg].
  - intros H; inversion H; subst; intros Hin; exfalso; exact (Hnone [] eq_refl Hin).
Qed.

(** X9. Every statement request of a load goes to the corp_code found for the
    company name, and for the selected year uses the selected report code. *)
Theorem load_data_by_button_selected_code s t k y c m r s' ev cc call :
  load s t k y c m = (r, s', ev) ->
  In (EvDart cc call) ev ->
  fst (get_corp_code dart_api_key corp_fetch t) = Some cc /\
  (c_year call = y -> c_reprt_code call = c).
Proof.
  intros H Hin; destruct (load_dart_events _ _ _ _ _ _ _ _ _ _ _ H Hin) as [Hc Hg].
  split; [exact Hc|intros Hy].
  apply get_financial_statements_calls in Hg as [_ Hg].
  rewrite Hy, (reprt_codes_override current_year _ [(y, c)] y c eq_refl) in Hg
    by (simpl; now rewrite Z.eqb_refl).
  now destruct Hg as [<-|[]].
Qed.

(** X10. With no DART key a load sends no DART request at all: the only
    request, if any, is the stock data of the ticker. *)
Theorem load_data_by_button_no_key s t k y c m r s' ev :
  dart_api_key = EmptyString ->
  load_data_by_button StockDF empty_stock get_stock_data dart_api_key corp_fetch dart
      current_year s t k y c m = (r, s', ev) ->
  Forall (fun e => e = EvStock k) ev.
Proof.
  intros Hkey; unfold load_data_by_button, load_fresh.
  destruct (match DATA_KEY s with Some k0 => _ | None => false end).
  - intros H; inversion H; constructor.
  - rewrite Hkey; simpl; intros H; inversion H; repeat constructor.
Qed.

End LoadProps.

(** ** The statement metrics of [main] *)

(** [valid_fs = {y: df for y, df in fs_data.items() if isinstance(df,
    pd.DataFrame) and not df.empty and {"account_nm", "thstrm_amount"}
    .issubset(df.columns)}]: a message frame has the single column
    ["메시지"], an empty year frame has no row. *)
Definition valid_fs (fs_data : list (string * Frame))
  : list (string * list (string * string)) :=
  flat_map (fun yf => match snd yf with
                      | FRows ((_ :: _) as rows) => [(fst yf, rows)]
                      | _ => []
                      end) fs_data.

(** The names added to [metrics]: [df["account_nm"].dropna().astype(str)
    .str.strip()], keeping the non-empty ones. *)
Definition metric_names (fs_data : list (string * Frame)) : list string :=
  flat_map (fun yr => filter (fun n => negb (String.eqb n EmptyString))
                             (map (fun r => strip (fst r)) (snd yr)))
           (valid_fs fs_data).

(** Adding to a sorted list without duplicates; [str] ordering in Python
    compares code points, which on UTF-8 bytes is the byte-wise order of
    [String.compare]. *)
Fixpoint insert_uniq (x : string) (l : list string) : list string :=
  match l with
  | [] => [x]
  | y :: l' =>
      match String.compare x y with
      | Lt => x :: l
      | Eq => l
      | Gt => y :: insert_uniq x l'
      end
  end.

(** [fs_all_metrics = sorted(metrics)] *)
Definition fs_all_metrics (fs_data : list (string * Frame)) : list string :=
  fold_right insert_uniq [] (metric_names fs_data).

(** [ser = valid_fs[y].loc[valid_fs[y]["account_nm"] == metric, "thstrm_amount"]]
    and [ser.iloc[0] if len(ser) else None]: the amount string handed to
    [to_trillion] for a metric and a year. *)
Fixpoint first_amount (metric : string) (rows : list (string * string)) : option string :=
  match rows with
  | [] => None
  | (nm, amt) :: rows' => if String.eqb nm metric then Some amt else first_amount metric rows'
  end.

Lemma in_insert_uniq (m x : string) (l : list string) :
  In m (insert_uniq x l) <-> m = x \/ In m l.
Proof.
  induction l as [|y l IH]; simpl; [intuition congruence|].
  destruct (String.compare x y) eqn:Hc; simpl.
  - apply String.compare_eq_iff in Hc; subst; intuition congruence.
  - intuition congruence.
  - rewrite IH; intuition congruence.
Qed.

Lemma fs_all_metrics_in (fs : list (string * Frame)) (m : string) :
  In m (fs_all_metrics fs) <-> In m (metric_names fs).
Proof.
  unfold fs_all_metrics; induction (metric_names fs) as [|x l IH]; simpl; [tauto|].
  rewrite in_insert_uniq, IH; intuition.
Qed.

(** A name is a metric exactly when it is non-empty and is the stripped
    account name of a row of a year frame with data; message frames and
    empty years contribute nothing. *)
Lemma fs_all_metrics_spec (fs : list (string * Frame)) (m : string) :
  In m (fs_all_metrics fs) <->
  m <> EmptyString /\
  exists y rows r, In (y, FRows rows) fs /\ In r rows /\ strip (fst r) = m.
Proof.
  rewrite fs_all_metrics_in; unfold metric_names, valid_fs.
  rewrite in_flat_map; split.
  - intros ((y, rows) & Hv & Hm).
    apply in_flat_map in Hv as ((y', fr) & Hin & Hv); simpl in Hv.
    destruct fr as [[|r0 rows0]|]; simpl in Hv; try contradiction.
    destruct Hv as [Hv|[]]; inversion Hv; subst.
    apply filter_In in Hm as [Hm Hne]; apply in_map_iff in Hm as (r & <- & Hr).
    split; [intros He; rewrite He in Hne; discriminate|].
    exists y, (r0 :: rows0), r; auto.
  - intros (Hne & y & rows & r & Hin & Hr & <-).
    destruct rows as [|r0 rows0]; [contradiction|].
    exists (y, r0 :: rows0); split.
    + apply in_flat_map; exists (y, FRows (r0 :: rows0)); simpl; auto.
    + apply filter_In; split; [apply in_map_iff; exists r; auto|].
      destruct (String.eqb (strip (fst r)) EmptyString) eqn:He; [|reflexivity].
      apply String.eqb_eq in He; contradiction.
Qed.

Lemma first_amount_found (m : string) (rows : list (string * string)) (r : string * string) :
  In r rows -> fst r = m -> exists amt, first_amount m rows = Some amt /\ In (m, amt) rows.
Proof.
  induction rows as [|[nm amt] rows IH]; simpl; [contradiction|].
  intros [<-|Hin] Hm; simpl in *.
  - subst; rewrite String.eqb_refl; eauto.
  - destruct (String.eqb nm m) eqn:He.
    + apply String.eqb_eq in He; subst; eauto.
    + destruct (IH Hin Hm) as (a & Ha & Hi); eauto.
Qed.

Definition clean_row (r : string * string) : Prop :=
  strip (fst r) = fst r /\ strip (snd r) = snd r /\ has_comma (snd r) = false.

Lemma try_one_year_clean src cur ov order y df tr :
  try_one_year src cur ov order y = (Adopted df, tr) -> Forall clean_row df.
Proof.
  rewrite try_one_year_first_exit.
  destruct (first_exit src _) as [[[df'|e]|] tr'] eqn:He; try discriminate.
  intros H; inversion H; subst df' tr'; clear H.
  destruct (first_exit_some src _ _ _ He) as (pre & c & post & _ & _ & _ & Hc).
  apply body_return in Hc as (rows & _ & ->).
  apply Forall_forall; intros [nm amt] Hin.
  apply in_map_iff in Hin as (r & Hr & _); unfold normalize_row, normalize_amount in Hr.
  inversion Hr; subst; clear Hr; unfold clean_row; simpl.
  split; [apply strip_idem|split; [apply strip_idem|]].
  apply has_comma_strip, has_comma_remove_commas.
Qed.

Lemma for_years_clean src cur ov order (ys : list Z) d tr :
  for_years src cur ov order ys = (Ok d, tr) ->
  forall y rows, In (y, FRows rows) d -> Forall clean_row rows.
Proof.
  revert d tr; induction ys as [|y0 ys IH]; simpl; intros d tr H.
  - inversion H; subst; contradiction.
  - pose proof (try_one_year_clean src cur ov order y0) as Hc.
    destruct (try_one_year src cur ov order y0) as [o tr0].
    destruct o as [df| |e]; try discriminate;
      destruct (for_years src cur ov order ys) as [[d'|e] tr'] eqn:Hr; try discriminate;
      inversion H; subst; clear H; intros y rows [Hy|Hin]; eauto.
    + inversion Hy; subst; eauto.
    + inversion Hy; subst; constructor.
Qed.

Lemma get_financial_statements_clean src cur ov key corp fs_mode d tr :
  get_financial_statements src cur ov key corp fs_mode = (Ok d, tr) ->
  forall y rows, In (y, FRows rows) d -> Forall clean_row rows.
Proof.
  unfold get_financial_statements.
  destruct key as [|k0 key], corp as [[|a cc]|]; cbv beta iota;
    try (intros H; inversion H; subst; intros y rows [Hy|[]]; discriminate);
    apply for_years_clean.
Qed.

(** X11. Every metric that [main] offers for a statement fetched by
    [get_financial_statements] is found by the exact comparison
    [df["account_nm"] == metric] in at least one year, whose first matching
    amount is already free of commas and surrounding whitespace. *)
Theorem fs_metric_has_amount src cur ov key corp fs_mode d tr (m : string) :
  get_financial_statements src cur ov key corp fs_mode = (Ok d, tr) ->
  In m (fs_all_metrics d) ->
  exists y rows amt,
    In (y, rows) (valid_fs d) /\ first_amount m rows = Some amt /\
    strip amt = amt /\ has_comma amt = false.
Proof.
  intros Hg Hm.
  apply fs_all_metrics_spec in Hm as (_ & y & rows & r & Hin & Hr & Hs).
  pose proof (get_financial_statements_clean _ _ _ _ _ _ _ _ Hg y rows Hin) as Hcl.
  rewrite Forall_forall in Hcl.
  destruct (Hcl r Hr) as [Hr1 _].
  destruct (first_amount_found m rows r Hr) as (amt & Ha & Hai); [congruence|].
  destruct (Hcl _ Hai) as (_ & Ha1 & Ha2); simpl in Ha1, Ha2.
  exists y, rows, amt; repeat split; auto.
  unfold valid_fs; apply in_flat_map; exists (y, FRows rows); split; [exact Hin|].
  destruct rows; [contradiction|simpl; auto].
Qed.

(** ** The resolver of [stock_analyzer.py] *)

(** The earlier script asks for the annual report ["11011"] only, with
    [fs_div] ["CFS"] then ["OFS"], and keeps the first answer with status
    ["000"] and a ["list"] key, whatever the key holds. *)
Module V1.

Definition keep_cols := ["account_nm"; "thstrm_amount"].

(** A DataFrame of this script: its columns and, per row, the cell of each
    column ([None] for NaN). *)
Record Frame := mkFrame {
  columns : list string;
  cells : list (list (option string))
}.

(** The value of [res["list"]]. *)
Inductive ListVal :=
| LNull                          (* null: pd.DataFrame(None) has no row, no column *)
| LRows (rows : list Row)        (* an array of JSON objects *)
| LOther (df : option Frame).    (* any other value: the frame pd.DataFrame builds
                                    from it, or None when it raises ValueError
                                    (a string, a number, a boolean, an object of
                                    scalars) *)

(** The body of the answer: a JSON object, as far as the script reads it, or
    another JSON value, on which [res.get] raises AttributeError. *)
Inductive Body :=
| BObject (status : option string) (list : option ListVal)
| BOther.

Inductive Fetch :=
| FetchError                     (* requests.get(...).json() raised *)
| FetchJson (b : Body).

(** [df[[c for c in keep_cols if c in df.columns]]] *)
Definition select (df : Frame) : Frame :=
  let cols := filter (fun c => existsb (String.eqb c) (columns df)) keep_cols in
  let get row c :=
    match find (fun p => String.eqb (fst p) c) (combine (columns df) row) with
    | Some (_, v) => v
    | None => None
    end in
  mkFrame cols (map (fun row => map (get row) cols) (cells df)).

(** [select (pd.DataFrame(rows))] for an array of objects: the columns are
    the keys of the rows, a missing key is NaN. *)
Definition frame_of (rows : list Row) : Frame :=
  let cols := filter (fun c => has_col c rows) keep_cols in
  mkFrame cols (map (fun r => map (fun c => row_get c r) cols) rows).

(** [pd.DataFrame({"account_nm": [], "thstrm_amount": []})] *)
Definition empty_frame : Frame := mkFrame keep_cols [].

(** [pd.DataFrame({"메시지": ["데이터 없음 (API 키 없음 또는 corp_code 없음)"]})] *)
Definition message_frame : Frame := mkFrame ["메시지"] [[Some no_data_msg]].

(** What one request leads to: [continue], [break] with a frame, or an
    exception that leaves the function. *)
Inductive Step :=
| Skip
| Adopt (df : Frame)
| Fail (e : string).

(** [if res.get("status") == "000" and "list" in res:
        df = pd.DataFrame(res["list"]); df = df[[...]]] *)
Definition body (res : Fetch) : Step :=
  match res with
  | FetchError => Skip
  | FetchJson BOther => Fail "AttributeError"
  | FetchJson (BObject st l) =>
      if match st with Some s => String.eqb s "000" | None => false end then
        match l with
        | None => Skip
        | Some LNull => Adopt (mkFrame [] [])
        | Some (LRows rows) => Adopt (frame_of rows)
        | Some (LOther (Some df)) => Adopt (select df)
        | Some (LOther None) => Fail "ValueError"
        end
      else Skip
  end.

(** [get_financial_statements] returns [fs_data] or lets an exception out. *)
Inductive Result :=
| Ok (fs_data : list (string * Frame))
| Raised (e : string).

Section Resolver.

Variable src : Call -> Fetch.
Variable current_year : Z.

(** [for fs_div in ["CFS", "OFS"]: ... break] *)
Fixpoint for_divs (year : Z) (divs : list Scope) : Step * list Call :=
  match divs with
  | [] => (Skip, [])
  | d :: ds =>
      let c := mkCall year code_11011 d in
      match body (src c) with
      | Skip => let (o, tr) := for_divs year ds in (o, c :: tr)
      | o => (o, [c])
      end
  end.

Fixpoint for_years (years : list Z) : Result * list Call :=
  match years with
  | [] => (Ok [], [])
  | y :: ys =>
      match for_divs y [CFS; OFS] with
      | (Fail e, tr) => (Raised e, tr)
      | (o, tr) =>
          let fr := match o with Adopt df => df | _ => empty_frame end in
          match for_years ys with
          | (Ok d, tr') => (Ok ((Z_to_string y, fr) :: d), (tr ++ tr')%list)
          | (Raised e, tr') => (Raised e, (tr ++ tr')%list)
          end
      end
  end.

(** [get_financial_statements(corp_code)] with the module-level
    [DART_API_KEY = os.getenv('DART_API_KEY')]. *)
Definition get_financial_statements (dart_api_key corp_code : option string)
  : Result * list Call :=
  match dart_api_key, corp_code with
  | Some (String _ _), Some (String _ _) => for_years (years_range current_year)
  | _, _ => (Ok [("재무제표", message_frame)], [])
  end.

End Resolver.

End V1.

Lemma v1_for_divs_calls src y divs :
  Forall (fun c => c_year c = y /\ c_reprt_code c = code_11011)
         (snd (V1.for_divs src y divs)) /\
  List.length (snd (V1.for_divs src y divs)) <= List.length divs /\
  forall e, fst (V1.for_divs src y divs) = V1.Fail e ->
    exists c, In c (snd (V1.for_divs src y divs)) /\ V1.body (src c) = V1.Fail e.
Proof.
  induction divs as [|d ds IH]; cbn [V1.for_divs]; [repeat split; auto; discriminate|].
  destruct (V1.body (src (mkCall y code_11011 d))) eqn:Hb.
  - destruct (V1.for_divs src y ds) as [o tr]; simpl in *.
    destruct IH as (Hf & Hl & He); repeat split; [constructor; auto|lia|].
    intros e H; destruct (He e H) as (c & Hc & Hce); exists c; auto.
  - simpl; repeat split; [constructor; auto|lia|discriminate].
  - simpl; repeat split; [constructor; auto|lia|].
    intros e' H; inversion H; subst; eexists; split; [left; reflexivity|exact Hb].
Qed.

Lemma v1_for_years_shape src (ys : list Z) :
  (match fst (V1.for_years src ys) with
   | V1.Ok d => map fst d = map Z_to_string ys
   | V1.Raised e => exists c, In c (snd (V1.for_years src ys)) /\ V1.body (src c) = V1.Fail e
   end) /\
  Forall (fun c => In (c_year c) ys /\ c_reprt_code c = code_11011)
         (snd (V1.for_years src ys)) /\
  List.length (snd (V1.for_years src ys)) <= 2 * List.length ys.
Proof.
  induction ys as [|y ys IH]; [simpl; repeat split; auto|].
  cbn [V1.for_years].
  destruct (v1_for_divs_calls src y [CFS; OFS]) as (Hf & Hl & He).
  destruct (V1.for_divs src y [CFS; OFS]) as [o tr]; simpl in Hf, Hl, He.
  assert (Hf' : Forall (fun c => In (c_year c) (y :: ys) /\ c_reprt_code c = code_11011) tr).
  { eapply Forall_impl; [|exact Hf]; intros c [-> ->]; simpl; auto. }
  destruct IH as (Hk & Hc & Hn).
  assert (Hc' : Forall (fun c => In (c_year c) (y :: ys) /\ c_reprt_code c = code_11011)
                       (snd (V1.for_years src ys))).
  { eapply Forall_impl; [|exact Hc]; intros c [? ?]; simpl; auto. }
  destruct o as [|df|e].
  3: { simpl; repeat split; [|exact Hf'|simpl in *; lia].
       destruct (He e eq_refl) as (c & Hin & Hb); eauto. }
  all: destruct (V1.for_years src ys) as [[d|e] tr'] eqn:Hr; simpl in *;
    (split; [|split; [apply Forall_app; split; auto|rewrite length_app; lia]]).
  all: try (f_equal; exact Hk).
  all: destruct Hk as (c & Hin & Hb); exists c; split; [apply in_or_app; now right|exact Hb].
Qed.

(** X12. With a key and a corp code, the earlier script returns a dict whose
    keys are exactly the six years in increasing order, unless an answer it
    requested made it raise (a body that is not a JSON object, or a status
    ["000"] answer whose ["list"] pandas rejects).  It sends at most twelve
    requests, all for the annual report ["11011"] of one of those years. *)
Theorem v1_get_financial_statements_years src cur key corp :
  key <> None -> key <> Some EmptyString ->
  corp <> None -> corp <> Some EmptyString ->
  (match fst (V1.get_financial_statements src cur key corp) with
   | V1.Ok d => map fst d = map Z_to_string (years_range cur)
   | V1.Raised e =>
       exists c, In c (snd (V1.get_financial_statements src cur key corp)) /\
                 V1.body (src c) = V1.Fail e
   end) /\
  Forall (fun c => (cur - 5 <= c_year c <= cur)%Z /\ c_reprt_code c = code_11011)
         (snd (V1.get_financial_statements src cur key corp)) /\
  List.length (snd (V1.get_financial_statements src cur key corp)) <= 12.
Proof.
  intros Hk1 Hk2 Hc1 Hc2.
  destruct key as [[|a k]|], corp as [[|b cc]|]; try congruence.
  unfold V1.get_financial_statements.
  destruct (v1_for_years_shape src (years_range cur)) as (Hkeys & Hcalls & Hlen).
  split; [exact Hkeys|split].
  - eapply Forall_impl; [|exact Hcalls]; intros c [Hy Hr]; split; [|exact Hr].
    unfold years_range in Hy; apply in_map_iff in Hy as (i & <- & Hi).
    apply in_seq in Hi; lia.
  - pose proof Hlen as Hl; unfold years_range at 2 in Hl; rewrite length_map, length_seq in Hl; lia.
Qed.




(** ** Witnesses of the further properties *)

Definition sample_corp : CorpFetch :=
  CorpXml [("LG", "00401731"); (" Samsung ", " 00126380 ")].

Definition sample_dart (corp_code : string) : Call -> Fetch := sample_src.

Definition sample_load := load_data_by_button nat 0%nat (fun _ => 7%nat) "key"
  sample_corp sample_dart 2024%Z.

Definition sample_session0 : Session nat := mkSession None None None.

Ltac in_list := vm_compute; repeat first [left; reflexivity | right].

Lemma get_corp_code_unstripped_name_witness :
  strip " Samsung" <> " Samsung" /\
  fst (get_corp_code "key" sample_corp " Samsung") = None.
Proof.
  split; [discriminate|].
  apply get_corp_code_unstripped_name; discriminate.
Defined.


Definition ideographic_space : string := String "227" (String "128" (String "128" EmptyString)).

Lemma whitespace_key_no_dart_call_witness :
  Forall (fun w => is_ws w = true) [ideographic_space; " "] /\
  get_secret (Some (ws_string [ideographic_space; " "])) false SecretsError EmptyString =
    EmptyString /\
  get_financial_statements sample_src 2024 None
    (get_secret (Some (ws_string [ideographic_space; " "])) false SecretsError EmptyString)
    (Some "00126380") "AUTO_CFS_OFS" = (Ok [("재무제표", FMessage no_data_msg)], []).
Proof.
  split; [repeat constructor|].
  apply (whitespace_key_no_dart_call [ideographic_space; " "]); [repeat constructor|].
  left; split; [reflexivity|discriminate].
Defined.

Lemma get_financial_statements_years_witness :
  In (mkCall 2023 "11011" CFS)
     (snd (get_financial_statements sample_src 2024 None "key" (Some "00126380") "AUTO_CFS_OFS")) /\
  (2024 - 5 <= c_year (mkCall 2023 "11011" CFS) <= 2024)%Z.
Proof.
  split; [in_list|].
  apply (get_financial_statements_years sample_src 2024 None "key" (Some "00126380")
           "AUTO_CFS_OFS"); in_list.
Defined.

Lemma params_key_injective_witness :
  params_key "Samsung" "005930" 2024 "11011" "CFS_ONLY" =
  params_key "Samsung" "005930" 2024 "11011" "CFS_ONLY" /\
  "Samsung" = "Samsung" /\ "005930" = "005930" /\ 2024%Z = 2024%Z /\
  "11011" = "11011" /\ "CFS_ONLY" = "CFS_ONLY".
Proof.
  split; [reflexivity|].
  apply (params_key_injective "Samsung" "005930" 2024 "11011" "CFS_ONLY"
           "Samsung" "005930" 2024 "11011" "CFS_ONLY"); reflexivity.
Defined.

Lemma load_data_by_button_cached_witness :
  exists sdf d s' ev,
    sample_load sample_session0 "Samsung" "005930" 2024 "11011" "AUTO_CFS_OFS" =
      (LoadOk sdf d, s', ev) /\
    sample_load s' "Samsung" "005930" 2024 "11011" "AUTO_CFS_OFS" = (LoadOk sdf d, s', []).
Proof.
  do 4 eexists; split; [reflexivity|].
  eapply (load_data_by_button_cached nat 0%nat (fun _ => 7%nat) "key" sample_corp sample_dart
           2024 sample_session0 "Samsung" "005930" 2024 "11011" "AUTO_CFS_OFS");
    reflexivity.
Defined.

Lemma load_data_by_button_key_collision_witness :
  exists sdf d s' ev,
    sample_load sample_session0 ("Samsung" ++ "|" ++ "005930") "KS" 2024 "11011" "CFS_ONLY" =
      (LoadOk sdf d, s', ev) /\
    sample_load s' "Samsung" ("005930" ++ "|" ++ "KS") 2024 "11011" "CFS_ONLY" =
      (LoadOk sdf d, s', []).
Proof.
  do 4 eexists; split; [reflexivity|].
  eapply (load_data_by_button_key_collision nat 0%nat (fun _ => 7%nat) "key" sample_corp
           sample_dart 2024 sample_session0 "Samsung" "005930" "KS" 2024 "11011" "CFS_ONLY");
    reflexivity.
Defined.

Lemma load_data_by_button_selected_code_witness :
  exists r s' ev,
    sample_load sample_session0 "Samsung" "005930" 2024 "11011" "AUTO_CFS_OFS" = (r, s', ev) /\
    In (EvDart "00126380" (mkCall 2024 "11011" OFS)) ev /\
    fst (get_corp_code "key" sample_corp "Samsung") = Some "00126380" /\
    (c_year (mkCall 2024 "11011" OFS) = 2024%Z -> c_reprt_code (mkCall 2024 "11011" OFS) = "11011").
Proof.
  do 3 eexists; split; [reflexivity|split; [in_list|]].
  eapply (load_data_by_button_selected_code nat 0%nat (fun _ => 7%nat) "key" sample_corp
           sample_dart 2024 sample_session0 "Samsung" "005930" 2024 "11011" "AUTO_CFS_OFS");
    [reflexivity|in_list].
Defined.

Lemma load_data_by_button_no_key_witness :
  exists r s' ev,
    load_data_by_button nat 0%nat (fun _ => 7%nat) EmptyString sample_corp sample_dart 2024
      sample_session0 "Samsung" "005930" 2024 "11011" "AUTO_CFS_OFS" = (r, s', ev) /\
    Forall (fun e => e = EvStock "005930") ev.
Proof.
  do 3 eexists; split; [reflexivity|].
  eapply (load_data_by_button_no_key nat 0%nat (fun _ => 7%nat) EmptyString sample_corp
           sample_dart 2024 sample_session0 "Samsung" "005930" 2024 "11011" "AUTO_CFS_OFS");
    reflexivity.
Defined.

Lemma fs_metric_has_amount_witness :
  exists d tr,
    get_financial_statements sample_src 2024 None "key" (Some "00126380") "AUTO_CFS_OFS" =
      (Ok d, tr) /\
    In "매출액" (fs_all_metrics d) /\
    exists y rows amt,
      In (y, rows) (valid_fs d) /\ first_amount "매출액" rows = Some amt /\
      strip amt = amt /\ has_comma amt = false.
Proof.
  do 2 eexists; split; [reflexivity|split; [in_list|]].
  eapply (fs_metric_has_amount sample_src 2024 None "key" (Some "00126380") "AUTO_CFS_OFS");
    [reflexivity|in_list].
Defined.

(** For the earlier script: rows for CFS 2023, an empty array for CFS 2022,
    a null list for CFS 2021, status "013" for the other CFS answers, and
    failed requests for OFS. *)
Definition v1_sample_src (c : Call) : V1.Fetch :=
  match c_fs_div c with
  | CFS =>
      if Z.eqb (c_year c) 2023 then
        V1.FetchJson (V1.BObject (Some "000") (Some (V1.LRows
          [[("account_nm", " 매출액 "); ("thstrm_amount", "1,234,567 ")]])))
      else if Z.eqb (c_year c) 2022 then
        V1.FetchJson (V1.BObject (Some "000") (Some (V1.LRows [])))
      else if Z.eqb (c_year c) 2021 then
        V1.FetchJson (V1.BObject (Some "000") (Some V1.LNull))
      else V1.FetchJson (V1.BObject (Some "013") None)
  | OFS => V1.FetchError
  end.

Lemma v1_get_financial_statements_years_witness :
  Some "key" <> None /\ Some "key" <> Some EmptyString /\
  Some "00126380" <> None /\ Some "00126380" <> Some EmptyString /\
  (match fst (V1.get_financial_statements v1_sample_src 2024 (Some "key") (Some "00126380")) with
   | V1.Ok d => map fst d = map Z_to_string (years_range 2024)
   | V1.Raised e =>
       exists c, In c (snd (V1.get_financial_statements v1_sample_src 2024 (Some "key")
                              (Some "00126380"))) /\
                 V1.body (v1_sample_src c) = V1.Fail e
   end) /\
  Forall (fun c => (2024 - 5 <= c_year c <= 2024)%Z /\ c_reprt_code c = code_11011)
    (snd (V1.get_financial_statements v1_sample_src 2024 (Some "key") (Some "00126380"))) /\
  List.length (snd (V1.get_financial_statements v1_sample_src 2024 (Some "key")
                      (Some "00126380"))) <= 12.
Proof.
  do 4 (split; [discriminate|]).
  apply v1_get_financial_statements_years; discriminate.
Defined.


(** ** Unicode whitespace *)

Definition no_break_space : string := String "194" (String "160" EmptyString).

Example strip_unicode :
  strip (ideographic_space ++ "매출액" ++ no_break_space) = "매출액".
Proof. reflexivity. Qed.

Example normalize_row_unicode :
  normalize_row [("account_nm", ideographic_space ++ "매출액" ++ no_break_space);
                 ("thstrm_amount", no_break_space ++ "1,000" ++ ideographic_space)] =
  ("매출액", "1000").
Proof. reflexivity. Qed.

Example get_corp_code_unicode_name :
  fst (get_corp_code "key" (CorpXml [("LG" ++ ideographic_space, "1"); ("LG", "2")]) "LG") =
  Some "1".
Proof. reflexivity. Qed.
